(** * torch/_op_ctl.py: switches for the AT Inference Fastpath backends

    The module is a facade over a process-wide register of four bits owned by
    the native runtime.  It has four getter/setter pairs, one per backend, and
    the context manager [atfp_kernel], which saves the four flags, applies the
    requested ones, runs the enclosed block and puts the saved flags back.

    Python code that reads and writes the register is embedded in a state and
    exception monad over the runtime's state; the body of a [with] statement
    is an arbitrary computation of that monad. *)

From Stdlib Require Import ZArith List Bool String Lia.
Import ListNotations.

Local Open Scope Z_scope.

(** ** The native runtime *)

(** Modelled from the spec: the global context register, which lives in the
    native runtime and not in this module.  It is "a process-wide 4-bit
    enable/disable register, each bit corresponding to one named backend",
    here four booleans; [bit_k] is the raw bit at index [k] and [false] is the
    raw value 0. *)
Record Register : Type := mkRegister {
  bit0 : bool;
  bit1 : bool;
  bit2 : bool;
  bit3 : bool
}.

(** Modelled from the spec: "Default state on a fresh register ... (raw bits
    unset)". *)
Definition fresh_register : Register := mkRegister false false false false.

(** Modelled from the spec: the register is "keyed by small integer indices".
    An index that names none of the four bits reads as unset, and writing to
    it changes nothing; the module itself only ever passes 0, 1, 2 and 3. *)
Definition read_bit (ctx_no : Z) (r : Register) : bool :=
  match ctx_no with
  | 0 => bit0 r
  | 1 => bit1 r
  | 2 => bit2 r
  | 3 => bit3 r
  | _ => false
  end.

Definition write_bit (ctx_no : Z) (v : bool) (r : Register) : Register :=
  match ctx_no with
  | 0 => mkRegister v (bit1 r) (bit2 r) (bit3 r)
  | 1 => mkRegister (bit0 r) v (bit2 r) (bit3 r)
  | 2 => mkRegister (bit0 r) (bit1 r) v (bit3 r)
  | 3 => mkRegister (bit0 r) (bit1 r) (bit2 r) v
  | _ => r
  end.

(** The primitive operations the runtime was asked to perform, as "get-bit
    (index) -> bool, set-bit(index), unset-bit(index)". *)
Inductive Call : Type :=
| GetCtx (ctx_no : Z)
| SetCtx (ctx_no : Z)
| UnsetCtx (ctx_no : Z).

(** The state of the process as far as this module can see it: the register,
    and the primitive operations performed so far, oldest first. *)
Record World : Type := mkWorld {
  reg : Register;
  calls : list Call
}.

Definition fresh_world : World := mkWorld fresh_register [].

(** ** Computations that read and write the world and may raise *)

Definition Exn : Type := string.

Inductive Result (A : Type) : Type :=
| Ok (a : A)
| Raise (e : Exn).

Arguments Ok {A} a.
Arguments Raise {A} e.

Definition M (A : Type) : Type := World -> Result A * World.

Definition ret {A} (a : A) : M A := fun w => (Ok a, w).

Definition bind {A B} (m : M A) (k : A -> M B) : M B :=
  fun w =>
    match m w with
    | (Ok a, w') => k a w'
    | (Raise e, w') => (Raise e, w')
    end.

Definition raise {A} (e : Exn) : M A := fun w => (Raise e, w).

(** Python's [try: body finally: cleanup].  The cleanup runs from the state
    the body left, whether the body completed or raised; the outcome is the
    body's, unless the cleanup itself raises. *)
Definition try_finally {A} (body : M A) (cleanup : M unit) : M A :=
  fun w =>
    match body w with
    | (outcome, w') =>
        match cleanup w' with
        | (Ok _, w'') => (outcome, w'')
        | (Raise e, w'') => (Raise e, w'')
        end
    end.

Declare Scope monad_scope.
Delimit Scope monad_scope with monad.
Notation "x <- m ;; k" := (bind m (fun x => k))
  (at level 61, m at next level, right associativity) : monad_scope.
Notation "m ;; k" := (bind m (fun _ => k))
  (at level 61, right associativity) : monad_scope.
Local Open Scope monad_scope.

(** The result and the final state of running a computation. *)
Definition eval {A} (m : M A) (w : World) : Result A := fst (m w).
Definition exec {A} (m : M A) (w : World) : World := snd (m w).

(** ** The interface of the runtime *)

(** What the module calls in [torch]: [torch.jit.is_scripting()], the eager
    primitives of [torch._C] and the traced primitives of [torch.ops.prim]. *)
Record Runtime : Type := mkRuntime {
  is_scripting : bool;
  _get_global_ctx : Z -> M bool;
  _set_global_ctx : Z -> M unit;
  _unset_global_ctx : Z -> M unit;
  _GetGlobalCtx : Z -> M bool;
  _SetGlobalCtx : Z -> M unit;
  _UnsetGlobalCtx : Z -> M unit
}.

(** The same runtime seen from the other call path. *)
Definition with_scripting (s : bool) (rt : Runtime) : Runtime :=
  mkRuntime s
    (_get_global_ctx rt) (_set_global_ctx rt) (_unset_global_ctx rt)
    (_GetGlobalCtx rt) (_SetGlobalCtx rt) (_UnsetGlobalCtx rt).

Module Native.

(** Modelled from the spec: the three primitives of the native runtime.
    Each acts on one bit of the register and is total. *)
Definition get_bit (ctx_no : Z) : M bool :=
  fun w => (Ok (read_bit ctx_no (reg w)),
            mkWorld (reg w) (calls w ++ [GetCtx ctx_no])).

Definition set_bit (ctx_no : Z) : M unit :=
  fun w => (Ok tt,
            mkWorld (write_bit ctx_no true (reg w))
                    (calls w ++ [SetCtx ctx_no])).

Definition unset_bit (ctx_no : Z) : M unit :=
  fun w => (Ok tt,
            mkWorld (write_bit ctx_no false (reg w))
                    (calls w ++ [UnsetCtx ctx_no])).

(** Modelled from the spec: the traced call path is "an alternate call path
    for the same three register operations", so both paths are the same
    operations on the register; [scripting] says which path the caller is
    on. *)
Definition runtime (scripting : bool) : Runtime :=
  mkRuntime scripting get_bit set_bit unset_bit get_bit set_bit unset_bit.

End Native.

(** ** The module *)

(** [class ATFPBackend(IntEnum)]; [bits = 4] is a member like the others. *)
Inductive ATFPBackend : Type :=
| ERROR
| MATH
| MHA
| ENCODER
| NESTED_TENSOR
| bits.

Definition value (b : ATFPBackend) : Z :=
  match b with
  | ERROR => -1
  | MATH => 0
  | MHA => 1
  | ENCODER => 2
  | NESTED_TENSOR => 3
  | bits => 4
  end.

(** The value of the [dict] display [{}]. *)
Definition Dict : Type := list (string * string).
Definition empty_dict : Dict := [].

(** The keyword-only arguments of [atfp_kernel], in the order of its
    signature. *)
Record Options : Type := mkOptions {
  enable_nested_tensor : bool;
  enable_encoder : bool;
  enable_mha : bool;
  enable_math : bool
}.

(** Every keyword argument defaults to [True]. *)
Definition default_options : Options := mkOptions true true true true.

Section Module_op_ctl.

Variable rt : Runtime.

(** [_write_global_ctx(ctx_no, enabled, default=True)] *)
Definition _write_global_ctx (ctx_no : Z) (enabled : bool) (default : bool)
  : M unit :=
  if Bool.eqb enabled default then
    if negb (is_scripting rt) then _unset_global_ctx rt ctx_no
    else _UnsetGlobalCtx rt ctx_no
  else
    if negb (is_scripting rt) then _set_global_ctx rt ctx_no
    else _SetGlobalCtx rt ctx_no.

(** [_is_global_ctx(ctx_no, default=True)] *)
Definition _is_global_ctx (ctx_no : Z) (default : bool) : M bool :=
  if negb (is_scripting rt) then
    raw <- _get_global_ctx rt ctx_no ;;
    ret (negb (Bool.eqb raw default))
  else
    raw <- _GetGlobalCtx rt ctx_no ;;
    ret (negb (Bool.eqb raw default)).

(** The accessors leave [default] at [True]. *)
Definition atfp_math_enabled : M bool := _is_global_ctx 0 true.
Definition enable_atfp_math (enabled : bool) : M unit :=
  _write_global_ctx 0 enabled true.

Definition atfp_mha_enabled : M bool := _is_global_ctx 1 true.
Definition enable_atfp_mha (enabled : bool) : M unit :=
  _write_global_ctx 1 enabled true.

Definition atfp_encoder_enabled : M bool := _is_global_ctx 2 true.
Definition enable_atfp_encoder (enabled : bool) : M unit :=
  _write_global_ctx 2 enabled true.

Definition atfp_nested_tensor_enabled : M bool := _is_global_ctx 3 true.
Definition enable_atfp_nested_tensor (enabled : bool) : M unit :=
  _write_global_ctx 3 enabled true.

(** [with atfp_kernel(...) as d: block(d)].  The generator runs up to its
    [yield {}], the block runs with the yielded value, and the generator is
    resumed (or the block's exception is thrown into it at the [yield]), so
    the block sits where the [yield] is, inside the [try]. *)
Definition atfp_kernel {A} (opts : Options) (block : Dict -> M A) : M A :=
  previous_math <- atfp_math_enabled ;;
  previous_mha <- atfp_mha_enabled ;;
  previous_encoder <- atfp_encoder_enabled ;;
  previous_nested_tensor <- atfp_nested_tensor_enabled ;;
  try_finally
    (enable_atfp_math (enable_math opts) ;;
     enable_atfp_mha (enable_mha opts) ;;
     enable_atfp_encoder (enable_encoder opts) ;;
     enable_atfp_nested_tensor (enable_nested_tensor opts) ;;
     block empty_dict)
    (enable_atfp_math previous_math ;;
     enable_atfp_mha previous_mha ;;
     enable_atfp_encoder previous_encoder ;;
     enable_atfp_nested_tensor previous_nested_tensor).

End Module_op_ctl.

(** ** Vocabulary of the statements *)

(** The primitive operation a setter asks for: unset for "enabled", set for
    "disabled". *)
Definition write_call (ctx_no : Z) (enabled : bool) : Call :=
  if enabled then UnsetCtx ctx_no else SetCtx ctx_no.

(** The four flags as a block would read them, in the order math, mha,
    encoder, nested_tensor. *)
Definition read_flags (rt : Runtime) : M (bool * bool * bool * bool) :=
  math <- atfp_math_enabled rt ;;
  mha <- atfp_mha_enabled rt ;;
  encoder <- atfp_encoder_enabled rt ;;
  nested_tensor <- atfp_nested_tensor_enabled rt ;;
  ret (math, mha, encoder, nested_tensor).

(** The requested flags, in the same order. *)
Definition requested (opts : Options) : bool * bool * bool * bool :=
  (enable_math opts, enable_mha opts, enable_encoder opts,
   enable_nested_tensor opts).

(** The register in which every flag reads as requested. *)
Definition requested_register (opts : Options) : Register :=
  mkRegister (negb (enable_math opts)) (negb (enable_mha opts))
             (negb (enable_encoder opts)) (negb (enable_nested_tensor opts)).

(** The statements of [atfp_kernel] before its [yield]: the state they leave
    is the state in which the enclosed block starts. *)
Definition scope_entry (rt : Runtime) (opts : Options) : M unit :=
  atfp_math_enabled rt ;;
  atfp_mha_enabled rt ;;
  atfp_encoder_enabled rt ;;
  atfp_nested_tensor_enabled rt ;;
  enable_atfp_math rt (enable_math opts) ;;
  enable_atfp_mha rt (enable_mha opts) ;;
  enable_atfp_encoder rt (enable_encoder opts) ;;
  enable_atfp_nested_tensor rt (enable_nested_tensor opts).

(** The statements of [atfp_kernel] inside its [try], before the [yield]. *)
Definition apply_options (rt : Runtime) (opts : Options) : M unit :=
  enable_atfp_math rt (enable_math opts) ;;
  enable_atfp_mha rt (enable_mha opts) ;;
  enable_atfp_encoder rt (enable_encoder opts) ;;
  enable_atfp_nested_tensor rt (enable_nested_tensor opts).

(** The statements of the [finally] of [atfp_kernel], for the captured
    values in the order math, mha, encoder, nested_tensor. *)
Definition restore_flags (rt : Runtime)
           (previous : bool * bool * bool * bool) : M unit :=
  let '(previous_math, previous_mha, previous_encoder,
        previous_nested_tensor) := previous in
  enable_atfp_math rt previous_math ;;
  enable_atfp_mha rt previous_mha ;;
  enable_atfp_encoder rt previous_encoder ;;
  enable_atfp_nested_tensor rt previous_nested_tensor.

(** ** Sample inputs *)

Module Sample.

(** Math and nested_tensor disabled, mha and encoder enabled. *)
Definition w0 : World := mkWorld (mkRegister true false false true) [].

(** [atfp_kernel(enable_math=False, enable_encoder=False)] *)
Definition opts0 : Options := mkOptions true false true false.

(** A block that toggles three of the flags and then raises. *)
Definition raising_block (rt : Runtime) : Dict -> M unit :=
  fun _ =>
    enable_atfp_math rt true ;;
    enable_atfp_nested_tensor rt true ;;
    enable_atfp_encoder rt true ;;
    raise "RuntimeError"%string.

(** A block that toggles flags, reads them and returns what it read. *)
Definition reading_block (rt : Runtime)
  : Dict -> M (bool * bool * bool * bool) :=
  fun _ =>
    enable_atfp_mha rt false ;;
    enable_atfp_nested_tensor rt true ;;
    read_flags rt.

(** A runtime on which reading the bit of the encoder raises. *)
Definition get_fails : Runtime :=
  mkRuntime false
    (fun ctx_no =>
       if ctx_no =? 2 then raise "RuntimeError"%string
       else Native.get_bit ctx_no)
    Native.set_bit Native.unset_bit
    Native.get_bit Native.set_bit Native.unset_bit.

(** A runtime on which setting the bit of the encoder raises. *)
Definition set_fails : Runtime :=
  mkRuntime false
    Native.get_bit
    (fun ctx_no =>
       if ctx_no =? 2 then raise "RuntimeError"%string
       else Native.set_bit ctx_no)
    Native.unset_bit
    Native.get_bit Native.set_bit Native.unset_bit.

(** Encoder and nested_tensor disabled, math and mha enabled. *)
Definition w1 : World := mkWorld (mkRegister false false true true) [].

End Sample.

(** ** The register *)

Lemma read_write_same (i : Z) (v : bool) (r : Register) :
  0 <= i < 4 -> read_bit i (write_bit i v r) = v.
Proof.
  intros Hi.
  assert (i = 0 \/ i = 1 \/ i = 2 \/ i = 3) as [-> | [-> | [-> | ->]]] by lia;
    reflexivity.
Qed.

Lemma read_write_other (i j : Z) (v : bool) (r : Register) :
  i <> j -> read_bit j (write_bit i v r) = read_bit j r.
Proof.
  intros Hij.
  destruct (Z.eq_dec i 0) as [-> | ?]; [| destruct (Z.eq_dec i 1) as [-> | ?];
    [| destruct (Z.eq_dec i 2) as [-> | ?]; [| destruct (Z.eq_dec i 3) as [-> | ?]]]].
  - destruct j as [| [ [ | | ] | [ | | ] | ] | ]; try reflexivity; congruence.
  - destruct j as [| [ [ | | ] | [ | | ] | ] | ]; try reflexivity; congruence.
  - destruct j as [| [ [ | | ] | [ | | ] | ] | ]; try reflexivity; congruence.
  - destruct j as [| [ [ | | ] | [ | | ] | ] | ]; try reflexivity; congruence.
  - replace (write_bit i v r) with r; [reflexivity |].
    destruct i as [| [ [ | | ] | [ | | ] | ] | ]; try reflexivity; congruence.
Qed.

Lemma register_ext (r r' : Register) :
  (forall i, 0 <= i < 4 -> read_bit i r = read_bit i r') -> r = r'.
Proof.
  intros H. destruct r as [a b c d], r' as [a' b' c' d'].
  pose proof (H 0 ltac:(lia)) as H0. pose proof (H 1 ltac:(lia)) as H1.
  pose proof (H 2 ltac:(lia)) as H2. pose proof (H 3 ltac:(lia)) as H3.
  simpl in H0, H1, H2, H3. congruence.
Qed.

(** Writing back the four bits of [r], in any state [r'], gives [r]. *)
Lemma write_back_all (r r' : Register) :
  write_bit 3 (bit3 r)
    (write_bit 2 (bit2 r) (write_bit 1 (bit1 r) (write_bit 0 (bit0 r) r')))
  = r.
Proof. destruct r; reflexivity. Qed.

(** ** The monad *)

Lemma bind_ok {A B} (m : M A) (k : A -> M B) (w w' : World) (a : A) :
  m w = (Ok a, w') -> bind m k w = k a w'.
Proof. intros H. unfold bind. rewrite H. reflexivity. Qed.

Lemma bind_raise {A B} (m : M A) (k : A -> M B) (w w' : World) (e : Exn) :
  m w = (Raise e, w') -> bind m k w = (Raise e, w').
Proof. intros H. unfold bind. rewrite H. reflexivity. Qed.

Lemma try_finally_ok {A} (body : M A) (cleanup : M unit)
      (w w' w'' : World) (o : Result A) :
  body w = (o, w') -> cleanup w' = (Ok tt, w'') ->
  try_finally body cleanup w = (o, w'').
Proof. intros Hb Hc. unfold try_finally. rewrite Hb, Hc. reflexivity. Qed.

(** ** The accessors on the native runtime *)

Section OnNative.

Variable s : bool.
Local Abbreviation rt := (Native.runtime s).

Lemma native_is_global_ctx (i : Z) (d : bool) (w : World) :
  _is_global_ctx rt i d w =
  (Ok (negb (Bool.eqb (read_bit i (reg w)) d)),
   mkWorld (reg w) (calls w ++ [GetCtx i])).
Proof. destruct s; reflexivity. Qed.

Lemma native_write_global_ctx (i : Z) (x d : bool) (w : World) :
  _write_global_ctx rt i x d w =
  (Ok tt,
   mkWorld (write_bit i (negb (Bool.eqb x d)) (reg w))
           (calls w ++ [if Bool.eqb x d then UnsetCtx i else SetCtx i])).
Proof. destruct s, x, d; reflexivity. Qed.

Lemma native_getter (i : Z) (w : World) :
  _is_global_ctx rt i true w =
  (Ok (negb (read_bit i (reg w))), mkWorld (reg w) (calls w ++ [GetCtx i])).
Proof.
  rewrite native_is_global_ctx.
  destruct (read_bit i (reg w)); reflexivity.
Qed.

Lemma native_setter (i : Z) (x : bool) (w : World) :
  _write_global_ctx rt i x true w =
  (Ok tt,
   mkWorld (write_bit i (negb x) (reg w)) (calls w ++ [write_call i x])).
Proof. rewrite native_write_global_ctx. destruct x; reflexivity. Qed.

End OnNative.

Ltac unfold_accessors :=
  unfold enable_atfp_math, enable_atfp_mha, enable_atfp_encoder,
    enable_atfp_nested_tensor, atfp_math_enabled, atfp_mha_enabled,
    atfp_encoder_enabled, atfp_nested_tensor_enabled in *.

(** ** The accessors *)

Section Accessors.

Variable s : bool.
Local Abbreviation rt := (Native.runtime s).

(** C3: for each of the four backends and each boolean [x], calling the
    backend's setter with [x] and then its getter returns [x], from any
    starting state and on either call path. *)
Theorem set_then_get (x : bool) (w : World) :
  eval (enable_atfp_math rt x ;; atfp_math_enabled rt) w = Ok x /\
  eval (enable_atfp_mha rt x ;; atfp_mha_enabled rt) w = Ok x /\
  eval (enable_atfp_encoder rt x ;; atfp_encoder_enabled rt) w = Ok x /\
  eval (enable_atfp_nested_tensor rt x ;; atfp_nested_tensor_enabled rt) w
  = Ok x.
Proof.
  unfold_accessors. unfold eval.
  repeat split;
    erewrite bind_ok by apply native_setter;
    rewrite native_getter; cbn [fst reg];
    rewrite read_write_same by lia; rewrite negb_involutive; reflexivity.
Qed.

(** C4: each getter returns the inversion of the raw bit of its backend (raw
    0 reads as enabled, raw 1 as disabled); each setter asks the runtime to
    unset the bit, leaving raw 0, when the requested value equals the default
    [True], and to set it, leaving raw 1, when it does not. *)
Theorem inverted_bit_semantics (w : World) :
  (eval (atfp_math_enabled rt) w = Ok (negb (bit0 (reg w))) /\
   eval (atfp_mha_enabled rt) w = Ok (negb (bit1 (reg w))) /\
   eval (atfp_encoder_enabled rt) w = Ok (negb (bit2 (reg w))) /\
   eval (atfp_nested_tensor_enabled rt) w = Ok (negb (bit3 (reg w)))) /\
  (forall enabled : bool,
     bit0 (reg (exec (enable_atfp_math rt enabled) w))
     = (if Bool.eqb enabled true then false else true) /\
     bit1 (reg (exec (enable_atfp_mha rt enabled) w))
     = (if Bool.eqb enabled true then false else true) /\
     bit2 (reg (exec (enable_atfp_encoder rt enabled) w))
     = (if Bool.eqb enabled true then false else true) /\
     bit3 (reg (exec (enable_atfp_nested_tensor rt enabled) w))
     = (if Bool.eqb enabled true then false else true)) /\
  (forall enabled : bool,
     calls (exec (enable_atfp_math rt enabled) w)
     = calls w ++ [if Bool.eqb enabled true then UnsetCtx 0 else SetCtx 0] /\
     calls (exec (enable_atfp_mha rt enabled) w)
     = calls w ++ [if Bool.eqb enabled true then UnsetCtx 1 else SetCtx 1] /\
     calls (exec (enable_atfp_encoder rt enabled) w)
     = calls w ++ [if Bool.eqb enabled true then UnsetCtx 2 else SetCtx 2] /\
     calls (exec (enable_atfp_nested_tensor rt enabled) w)
     = calls w ++ [if Bool.eqb enabled true then UnsetCtx 3 else SetCtx 3]).
Proof.
  unfold_accessors. unfold eval, exec.
  split; [| split].
  - repeat split; rewrite native_getter; reflexivity.
  - intros enabled.
    repeat split; rewrite native_setter; destruct enabled; reflexivity.
  - intros enabled.
    repeat split; rewrite native_setter; destruct enabled; reflexivity.
Qed.

(** C7: on a fresh register, all four raw bits unset, each of the four
    getters returns true. *)
Theorem fresh_register_all_enabled (log : list Call) :
  eval (atfp_math_enabled rt) (mkWorld fresh_register log) = Ok true /\
  eval (atfp_mha_enabled rt) (mkWorld fresh_register log) = Ok true /\
  eval (atfp_encoder_enabled rt) (mkWorld fresh_register log) = Ok true /\
  eval (atfp_nested_tensor_enabled rt) (mkWorld fresh_register log) = Ok true.
Proof.
  unfold_accessors. unfold eval.
  rewrite !native_getter. repeat split.
Qed.

(** C8: a setter leaves the result of the getters of the three other
    backends as it was, and every getter leaves the whole register as it
    was. *)
Theorem toggling_is_independent (x : bool) (w : World) :
  (eval (atfp_mha_enabled rt) (exec (enable_atfp_math rt x) w)
   = eval (atfp_mha_enabled rt) w /\
   eval (atfp_encoder_enabled rt) (exec (enable_atfp_math rt x) w)
   = eval (atfp_encoder_enabled rt) w /\
   eval (atfp_nested_tensor_enabled rt) (exec (enable_atfp_math rt x) w)
   = eval (atfp_nested_tensor_enabled rt) w) /\
  (eval (atfp_math_enabled rt) (exec (enable_atfp_mha rt x) w)
   = eval (atfp_math_enabled rt) w /\
   eval (atfp_encoder_enabled rt) (exec (enable_atfp_mha rt x) w)
   = eval (atfp_encoder_enabled rt) w /\
   eval (atfp_nested_tensor_enabled rt) (exec (enable_atfp_mha rt x) w)
   = eval (atfp_nested_tensor_enabled rt) w) /\
  (eval (atfp_math_enabled rt) (exec (enable_atfp_encoder rt x) w)
   = eval (atfp_math_enabled rt) w /\
   eval (atfp_mha_enabled rt) (exec (enable_atfp_encoder rt x) w)
   = eval (atfp_mha_enabled rt) w /\
   eval (atfp_nested_tensor_enabled rt) (exec (enable_atfp_encoder rt x) w)
   = eval (atfp_nested_tensor_enabled rt) w) /\
  (eval (atfp_math_enabled rt) (exec (enable_atfp_nested_tensor rt x) w)
   = eval (atfp_math_enabled rt) w /\
   eval (atfp_mha_enabled rt) (exec (enable_atfp_nested_tensor rt x) w)
   = eval (atfp_mha_enabled rt) w /\
   eval (atfp_encoder_enabled rt) (exec (enable_atfp_nested_tensor rt x) w)
   = eval (atfp_encoder_enabled rt) w) /\
  (reg (exec (atfp_math_enabled rt) w) = reg w /\
   reg (exec (atfp_mha_enabled rt) w) = reg w /\
   reg (exec (atfp_encoder_enabled rt) w) = reg w /\
   reg (exec (atfp_nested_tensor_enabled rt) w) = reg w).
Proof.
  unfold_accessors. unfold eval, exec.
  rewrite !native_setter, !native_getter. cbn [fst snd reg].
  repeat split; rewrite read_write_other by lia; reflexivity.
Qed.

(** C9: the enumeration has the members ERROR = -1, MATH = 0, MHA = 1,
    ENCODER = 2, NESTED_TENSOR = 3 and the bit width [bits] = 4, and no
    others; each accessor pair works on the register bit whose index is the
    value of its backend: the getter asks the runtime for that bit and
    reports its inversion, the setter writes that bit and no other. *)
Theorem accessors_use_backend_index (x : bool) (w : World) :
  (map value [ERROR; MATH; MHA; ENCODER; NESTED_TENSOR; bits]
   = [-1; 0; 1; 2; 3; 4] /\
   forall b, In b [ERROR; MATH; MHA; ENCODER; NESTED_TENSOR; bits]) /\
  (atfp_math_enabled rt w
   = (Ok (negb (read_bit (value MATH) (reg w))),
      mkWorld (reg w) (calls w ++ [GetCtx (value MATH)])) /\
   atfp_mha_enabled rt w
   = (Ok (negb (read_bit (value MHA) (reg w))),
      mkWorld (reg w) (calls w ++ [GetCtx (value MHA)])) /\
   atfp_encoder_enabled rt w
   = (Ok (negb (read_bit (value ENCODER) (reg w))),
      mkWorld (reg w) (calls w ++ [GetCtx (value ENCODER)])) /\
   atfp_nested_tensor_enabled rt w
   = (Ok (negb (read_bit (value NESTED_TENSOR) (reg w))),
      mkWorld (reg w) (calls w ++ [GetCtx (value NESTED_TENSOR)]))) /\
  (enable_atfp_math rt x w
   = (Ok tt,
      mkWorld (write_bit (value MATH) (negb x) (reg w))
              (calls w ++ [write_call (value MATH) x])) /\
   enable_atfp_mha rt x w
   = (Ok tt,
      mkWorld (write_bit (value MHA) (negb x) (reg w))
              (calls w ++ [write_call (value MHA) x])) /\
   enable_atfp_encoder rt x w
   = (Ok tt,
      mkWorld (write_bit (value ENCODER) (negb x) (reg w))
              (calls w ++ [write_call (value ENCODER) x])) /\
   enable_atfp_nested_tensor rt x w
   = (Ok tt,
      mkWorld (write_bit (value NESTED_TENSOR) (negb x) (reg w))
              (calls w ++ [write_call (value NESTED_TENSOR) x]))).
Proof.
  split; [| split].
  - split; [reflexivity |].
    intros b. destruct b; simpl; tauto.
  - unfold_accessors. simpl value. rewrite !native_getter. repeat split.
  - unfold_accessors. simpl value. rewrite !native_setter. repeat split.
Qed.

End Accessors.

(** ** The two call paths *)

Section CallPaths.

Variable rt : Runtime.

Hypothesis traced_get :
  forall ctx_no w, _GetGlobalCtx rt ctx_no w = _get_global_ctx rt ctx_no w.
Hypothesis traced_set :
  forall ctx_no w, _SetGlobalCtx rt ctx_no w = _set_global_ctx rt ctx_no w.
Hypothesis traced_unset :
  forall ctx_no w, _UnsetGlobalCtx rt ctx_no w = _unset_global_ctx rt ctx_no w.

(** C5: if the traced primitives act as the eager primitives do, then for
    every bit index and every boolean argument [_is_global_ctx] and
    [_write_global_ctx] return the same result and leave the same state on
    the scripting path as on the eager path. *)
Theorem call_paths_equivalent
        (ctx_no : Z) (enabled default : bool) (w : World) :
  _is_global_ctx (with_scripting true rt) ctx_no default w
  = _is_global_ctx (with_scripting false rt) ctx_no default w /\
  _write_global_ctx (with_scripting true rt) ctx_no enabled default w
  = _write_global_ctx (with_scripting false rt) ctx_no enabled default w.
Proof.
  unfold _is_global_ctx, _write_global_ctx, with_scripting.
  cbn [is_scripting negb _get_global_ctx _GetGlobalCtx _set_global_ctx
       _SetGlobalCtx _unset_global_ctx _UnsetGlobalCtx].
  split.
  - unfold bind. rewrite traced_get. reflexivity.
  - destruct (Bool.eqb enabled default).
    + apply traced_unset.
    + apply traced_set.
Qed.

End CallPaths.

(** ** The scope on the native runtime *)

Section ScopeOnNative.

Variable s : bool.
Local Abbreviation rt := (Native.runtime s).

Lemma flags_of_requested_register (opts : Options) :
  (negb (bit0 (requested_register opts)), negb (bit1 (requested_register opts)),
   negb (bit2 (requested_register opts)), negb (bit3 (requested_register opts)))
  = requested opts.
Proof.
  unfold requested, requested_register. cbn [bit0 bit1 bit2 bit3].
  rewrite !negb_involutive. reflexivity.
Qed.

Lemma native_read_flags (w : World) :
  read_flags rt w =
  (Ok (negb (bit0 (reg w)), negb (bit1 (reg w)),
       negb (bit2 (reg w)), negb (bit3 (reg w))),
   mkWorld (reg w)
           (calls w ++ [GetCtx 0; GetCtx 1; GetCtx 2; GetCtx 3])).
Proof.
  unfold read_flags. unfold_accessors.
  repeat (erewrite bind_ok by apply native_getter).
  unfold ret. cbn [reg calls read_bit].
  rewrite <- !app_assoc. reflexivity.
Qed.

Lemma native_scope_entry (opts : Options) (w : World) :
  scope_entry rt opts w =
  (Ok tt,
   mkWorld (requested_register opts)
           (calls w ++ [GetCtx 0; GetCtx 1; GetCtx 2; GetCtx 3;
                        write_call 0 (enable_math opts);
                        write_call 1 (enable_mha opts);
                        write_call 2 (enable_encoder opts);
                        write_call 3 (enable_nested_tensor opts)])).
Proof.
  unfold scope_entry. unfold_accessors.
  repeat (erewrite bind_ok by apply native_getter).
  repeat (erewrite bind_ok by apply native_setter).
  rewrite native_setter.
  cbn [reg calls write_bit bit0 bit1 bit2 bit3].
  rewrite <- !app_assoc. reflexivity.
Qed.

(** What [atfp_kernel] does around any block: the block starts in the state
    [scope_entry] leaves, its outcome is the outcome of the [with] statement,
    and the register is put back by four writes. *)
Lemma native_atfp_kernel {A} (opts : Options) (block : Dict -> M A)
      (w : World) :
  atfp_kernel rt opts block w =
  (eval (block empty_dict) (exec (scope_entry rt opts) w),
   mkWorld (reg w)
           (calls (exec (block empty_dict) (exec (scope_entry rt opts) w))
            ++ [write_call 0 (negb (bit0 (reg w)));
                write_call 1 (negb (bit1 (reg w)));
                write_call 2 (negb (bit2 (reg w)));
                write_call 3 (negb (bit3 (reg w)))])).
Proof.
  unfold eval, exec. rewrite !native_scope_entry. cbn [snd].
  unfold atfp_kernel. unfold_accessors.
  repeat (erewrite bind_ok by apply native_getter).
  unfold try_finally.
  repeat (erewrite bind_ok by apply native_setter).
  cbn [reg calls write_bit read_bit bit0 bit1 bit2 bit3].
  rewrite <- !app_assoc. cbn [app].
  unfold eval, exec.
  destruct (block empty_dict _) as [outcome w_b].
  repeat (erewrite bind_ok by apply native_setter).
  rewrite native_setter.
  cbn [reg calls fst snd].
  rewrite !negb_involutive, write_back_all.
  rewrite <- !app_assoc. reflexivity.
Qed.

(** The block of a scope starts in the state [scope_entry] leaves. *)
Lemma block_starts_after_entry (opts : Options) (w : World) :
  eval (atfp_kernel rt opts (fun _ w_in => (Ok w_in, w_in))) w
  = Ok (exec (scope_entry rt opts) w).
Proof. unfold eval at 1. rewrite native_atfp_kernel. reflexivity. Qed.

End ScopeOnNative.

(** ** The scoped configuration *)

Section Scope.

Variable s : bool.
Local Abbreviation rt := (Native.runtime s).

(** C1: whatever the state before entry, the requested options and the
    block, if the block raises then the [with] statement raises the same
    exception, and in the state in which it propagates the four flags read
    as before entry and the register equals the register before entry: the
    four restoring writes come after everything the block did. *)
Theorem restore_on_exception {A} (opts : Options) (block : Dict -> M A)
        (w w_b : World) (e : Exn) :
  block empty_dict (exec (scope_entry rt opts) w) = (Raise e, w_b) ->
  eval (atfp_kernel rt opts block) w = Raise e /\
  (eval (atfp_math_enabled rt) (exec (atfp_kernel rt opts block) w)
   = eval (atfp_math_enabled rt) w /\
   eval (atfp_mha_enabled rt) (exec (atfp_kernel rt opts block) w)
   = eval (atfp_mha_enabled rt) w /\
   eval (atfp_encoder_enabled rt) (exec (atfp_kernel rt opts block) w)
   = eval (atfp_encoder_enabled rt) w /\
   eval (atfp_nested_tensor_enabled rt) (exec (atfp_kernel rt opts block) w)
   = eval (atfp_nested_tensor_enabled rt) w) /\
  reg (exec (atfp_kernel rt opts block) w) = reg w /\
  exists previous_math previous_mha previous_encoder previous_nested_tensor,
    eval (read_flags rt) w
    = Ok (previous_math, previous_mha, previous_encoder,
          previous_nested_tensor) /\
    calls (exec (atfp_kernel rt opts block) w)
    = calls w_b ++ [write_call (value MATH) previous_math;
                    write_call (value MHA) previous_mha;
                    write_call (value ENCODER) previous_encoder;
                    write_call (value NESTED_TENSOR) previous_nested_tensor].
Proof.
  intros Hblock.
  unfold eval, exec in *. rewrite native_atfp_kernel.
  unfold eval, exec. rewrite Hblock. cbn [fst snd].
  split; [reflexivity |].
  split; [| split; [reflexivity |]].
  - unfold_accessors. rewrite !native_getter. repeat split.
  - do 4 eexists. rewrite native_read_flags. split; reflexivity.
Qed.

(** C2: whatever the state before entry, the requested options and the
    block, if the block completes then the [with] statement completes with
    the block's result and each of the four flags reads exactly as before
    entry, whatever the block wrote to them.  The values are captured in the
    order math, mha, encoder, nested_tensor, before anything is written, and
    written back in that same order, after everything the block did. *)
Theorem restore_on_normal_exit {A} (opts : Options) (block : Dict -> M A)
        (w w_b : World) (a : A) :
  block empty_dict (exec (scope_entry rt opts) w) = (Ok a, w_b) ->
  eval (atfp_kernel rt opts block) w = Ok a /\
  (eval (atfp_math_enabled rt) (exec (atfp_kernel rt opts block) w)
   = eval (atfp_math_enabled rt) w /\
   eval (atfp_mha_enabled rt) (exec (atfp_kernel rt opts block) w)
   = eval (atfp_mha_enabled rt) w /\
   eval (atfp_encoder_enabled rt) (exec (atfp_kernel rt opts block) w)
   = eval (atfp_encoder_enabled rt) w /\
   eval (atfp_nested_tensor_enabled rt) (exec (atfp_kernel rt opts block) w)
   = eval (atfp_nested_tensor_enabled rt) w) /\
  reg (exec (atfp_kernel rt opts block) w) = reg w /\
  exists previous_math previous_mha previous_encoder previous_nested_tensor,
    eval (read_flags rt) w
    = Ok (previous_math, previous_mha, previous_encoder,
          previous_nested_tensor) /\
    calls (exec (scope_entry rt opts) w)
    = calls w ++ [GetCtx (value MATH); GetCtx (value MHA);
                  GetCtx (value ENCODER); GetCtx (value NESTED_TENSOR)]
              ++ [write_call (value MATH) (enable_math opts);
                  write_call (value MHA) (enable_mha opts);
                  write_call (value ENCODER) (enable_encoder opts);
                  write_call (value NESTED_TENSOR)
                             (enable_nested_tensor opts)] /\
    calls (exec (atfp_kernel rt opts block) w)
    = calls w_b ++ [write_call (value MATH) previous_math;
                    write_call (value MHA) previous_mha;
                    write_call (value ENCODER) previous_encoder;
                    write_call (value NESTED_TENSOR) previous_nested_tensor].
Proof.
  intros Hblock.
  unfold eval, exec in *. rewrite native_atfp_kernel.
  unfold eval, exec. rewrite Hblock. cbn [fst snd].
  split; [reflexivity |].
  split; [| split; [reflexivity |]].
  - unfold_accessors. rewrite !native_getter. repeat split.
  - do 4 eexists. rewrite native_read_flags, native_scope_entry.
    repeat split.
Qed.

(** C6: with one scope nested directly in another, the inner scope starts in
    the state the outer scope established, where the flags read as the outer
    scope requested.  When the inner scope is left, by completion or by an
    exception, the register is again the one the outer scope established, so
    the flags read inside the outer scope right after the inner one are the
    outer scope's; more generally an inner scope entered in any state puts
    that state's register back.  When the outer scope is left the register
    and the four flags are those from before the outer scope was entered. *)
Theorem nested_scopes {A} (outer inner : Options) (block : Dict -> M A)
        (w : World) :
  eval (atfp_kernel rt outer (fun _ => atfp_kernel rt inner block)) w
  = eval (atfp_kernel rt inner block) (exec (scope_entry rt outer) w) /\
  eval (read_flags rt) (exec (scope_entry rt outer) w)
  = Ok (requested outer) /\
  eval (read_flags rt)
       (exec (atfp_kernel rt inner block) (exec (scope_entry rt outer) w))
  = Ok (requested outer) /\
  reg (exec (atfp_kernel rt inner block) (exec (scope_entry rt outer) w))
  = reg (exec (scope_entry rt outer) w) /\
  eval (atfp_kernel rt outer
          (fun _ => _ <- atfp_kernel rt inner block ;; read_flags rt)) w
  = match eval (block empty_dict)
                (exec (scope_entry rt inner) (exec (scope_entry rt outer) w))
    with
    | Ok _ => Ok (requested outer)
    | Raise e => Raise e
    end /\
  (forall w1 : World,
     reg (exec (atfp_kernel rt inner block) w1) = reg w1 /\
     eval (read_flags rt) (exec (atfp_kernel rt inner block) w1)
     = eval (read_flags rt) w1) /\
  reg (exec (atfp_kernel rt outer (fun _ => atfp_kernel rt inner block)) w)
  = reg w /\
  eval (read_flags rt)
       (exec (atfp_kernel rt outer (fun _ => atfp_kernel rt inner block)) w)
  = eval (read_flags rt) w.
Proof.
  unfold eval, exec.
  rewrite !native_atfp_kernel. unfold eval, exec.
  rewrite !native_atfp_kernel. unfold eval, exec.
  rewrite !native_scope_entry. cbn [fst snd reg].
  rewrite !native_read_flags. cbn [fst snd reg].
  rewrite !flags_of_requested_register.
  repeat split.
  - unfold bind. rewrite native_atfp_kernel.
    unfold eval, exec. rewrite native_scope_entry. cbn [fst snd reg calls].
    destruct (block empty_dict _) as [[a | e] w_b]; cbn [fst snd].
    + rewrite native_read_flags. cbn [fst reg].
      rewrite flags_of_requested_register. reflexivity.
    + reflexivity.
  - rewrite native_atfp_kernel. reflexivity.
  - rewrite native_atfp_kernel. unfold eval, exec. cbn [fst snd].
    rewrite !native_read_flags. reflexivity.
Qed.

(** C10: entering the scope is not a no-op.  A block that reads the four
    flags as soon as it starts finds each one equal to its keyword argument,
    so under the default options it finds all four enabled, whatever they
    were before entry; the register in which the block starts has all four
    bits unset, which on a register with a disabled backend is not the
    register from before entry. *)
Theorem entry_applies_options (opts : Options) (w : World) :
  eval (atfp_kernel rt opts (fun _ => read_flags rt)) w
  = Ok (enable_math opts, enable_mha opts, enable_encoder opts,
        enable_nested_tensor opts) /\
  eval (atfp_kernel rt default_options (fun _ => read_flags rt)) w
  = Ok (true, true, true, true) /\
  reg (exec (scope_entry rt default_options) w) = fresh_register /\
  (exists w0 : World,
     eval (read_flags rt) w0 = Ok (false, true, false, true) /\
     reg (exec (scope_entry rt default_options) w0) <> reg w0).
Proof.
  unfold eval, exec.
  rewrite !native_atfp_kernel. unfold eval, exec.
  rewrite !native_scope_entry. cbn [fst snd].
  rewrite !native_read_flags. cbn [fst snd reg].
  rewrite !flags_of_requested_register.
  repeat split.
  exists (mkWorld (mkRegister true false true false) []).
  rewrite native_read_flags, native_scope_entry.
  split; [reflexivity | discriminate].
Qed.

End Scope.

(** ** Runs on concrete inputs *)

Module Runs.

Import Sample.

Example fresh_world_reads_enabled :
  eval (read_flags (Native.runtime false)) fresh_world
  = Ok (true, true, true, true).
Proof. reflexivity. Qed.

Example w0_reads :
  eval (read_flags (Native.runtime true)) w0 = Ok (false, true, true, false).
Proof. reflexivity. Qed.

Example disable_encoder_run :
  enable_atfp_encoder (Native.runtime false) false w0
  = (Ok tt, mkWorld (mkRegister true false true true) [SetCtx 2]).
Proof. reflexivity. Qed.

Example enable_math_run :
  enable_atfp_math (Native.runtime true) true w0
  = (Ok tt, mkWorld (mkRegister false false false true) [UnsetCtx 0]).
Proof. reflexivity. Qed.

Example raising_block_run :
  atfp_kernel (Native.runtime false) opts0
              (raising_block (Native.runtime false)) w0
  = (Raise "RuntimeError"%string,
     mkWorld (mkRegister true false false true)
             [GetCtx 0; GetCtx 1; GetCtx 2; GetCtx 3;
              SetCtx 0; UnsetCtx 1; SetCtx 2; UnsetCtx 3;
              UnsetCtx 0; UnsetCtx 3; UnsetCtx 2;
              SetCtx 0; UnsetCtx 1; UnsetCtx 2; SetCtx 3]).
Proof. reflexivity. Qed.

Example reading_block_run :
  atfp_kernel (Native.runtime true) opts0
              (reading_block (Native.runtime true)) w0
  = (Ok (false, false, false, true),
     mkWorld (mkRegister true false false true)
             [GetCtx 0; GetCtx 1; GetCtx 2; GetCtx 3;
              SetCtx 0; UnsetCtx 1; SetCtx 2; UnsetCtx 3;
              SetCtx 1; UnsetCtx 3;
              GetCtx 0; GetCtx 1; GetCtx 2; GetCtx 3;
              SetCtx 0; UnsetCtx 1; UnsetCtx 2; SetCtx 3]).
Proof. reflexivity. Qed.

End Runs.

(** ** The conditional theorems at concrete inputs *)

(** [restore_on_exception] on the eager path, for a block that toggles three
    flags and raises. *)
Lemma restore_on_exception_witness :
  Sample.raising_block (Native.runtime false) empty_dict
    (exec (scope_entry (Native.runtime false) Sample.opts0) Sample.w0)
  = (Raise "RuntimeError"%string,
     exec (Sample.raising_block (Native.runtime false) empty_dict)
          (exec (scope_entry (Native.runtime false) Sample.opts0) Sample.w0)) /\
  eval (atfp_kernel (Native.runtime false) Sample.opts0
          (Sample.raising_block (Native.runtime false))) Sample.w0
  = Raise "RuntimeError"%string /\
  reg (exec (atfp_kernel (Native.runtime false) Sample.opts0
               (Sample.raising_block (Native.runtime false))) Sample.w0)
  = reg Sample.w0.
Proof.
  split; [reflexivity |].
  pose proof (restore_on_exception false Sample.opts0
                (Sample.raising_block (Native.runtime false)) Sample.w0
                (exec (Sample.raising_block (Native.runtime false) empty_dict)
                   (exec (scope_entry (Native.runtime false) Sample.opts0)
                      Sample.w0))
                "RuntimeError"%string eq_refl)
    as (Hraise & _ & Hreg & _).
  split; assumption.
Defined.

(** [restore_on_normal_exit] on the scripting path, for a block that toggles
    two flags and reads all four. *)
Lemma restore_on_normal_exit_witness :
  Sample.reading_block (Native.runtime true) empty_dict
    (exec (scope_entry (Native.runtime true) Sample.opts0) Sample.w0)
  = (Ok (false, false, false, true),
     exec (Sample.reading_block (Native.runtime true) empty_dict)
          (exec (scope_entry (Native.runtime true) Sample.opts0) Sample.w0)) /\
  eval (atfp_kernel (Native.runtime true) Sample.opts0
          (Sample.reading_block (Native.runtime true))) Sample.w0
  = Ok (false, false, false, true) /\
  reg (exec (atfp_kernel (Native.runtime true) Sample.opts0
               (Sample.reading_block (Native.runtime true))) Sample.w0)
  = reg Sample.w0.
Proof.
  split; [reflexivity |].
  pose proof (restore_on_normal_exit true Sample.opts0
                (Sample.reading_block (Native.runtime true)) Sample.w0
                (exec (Sample.reading_block (Native.runtime true) empty_dict)
                   (exec (scope_entry (Native.runtime true) Sample.opts0)
                      Sample.w0))
                (false, false, false, true) eq_refl)
    as (Hresult & _ & Hreg & _).
  split; assumption.
Defined.

(** [call_paths_equivalent] for the native runtime, whose traced primitives
    are its eager ones: disabling the encoder on a fresh register. *)
Lemma call_paths_equivalent_witness :
  _is_global_ctx (with_scripting true (Native.runtime false)) 2 true
                 fresh_world
  = _is_global_ctx (with_scripting false (Native.runtime false)) 2 true
                   fresh_world /\
  _write_global_ctx (with_scripting true (Native.runtime false)) 2 false true
                    fresh_world
  = _write_global_ctx (with_scripting false (Native.runtime false)) 2 false
                      true fresh_world.
Proof.
  apply (call_paths_equivalent (Native.runtime false)).
  - intros ctx_no w. reflexivity.
  - intros ctx_no w. reflexivity.
  - intros ctx_no w. reflexivity.
Defined.

(** ** The [default] argument *)

Section DefaultArgument.

Variable rt : Runtime.

(** X2: on any runtime, negating both [enabled] and [default] asks for the
    same write, and reading with the negated [default] gives the negated
    answer and the same state: [default] only fixes which raw value counts
    as enabled. *)
Theorem default_flips_polarity
        (ctx_no : Z) (enabled default : bool) (w : World) :
  _write_global_ctx rt ctx_no (negb enabled) (negb default) w
  = _write_global_ctx rt ctx_no enabled default w /\
  _is_global_ctx rt ctx_no (negb default) w
  = (answer <- _is_global_ctx rt ctx_no default ;; ret (negb answer)) w.
Proof.
  unfold _write_global_ctx, _is_global_ctx. split.
  - destruct enabled, default; reflexivity.
  - destruct (is_scripting rt); cbn [negb]; unfold bind, ret.
    + destruct (_GetGlobalCtx rt ctx_no w) as [[raw | e] w'];
        [destruct raw, default |]; reflexivity.
    + destruct (_get_global_ctx rt ctx_no w) as [[raw | e] w'];
        [destruct raw, default |]; reflexivity.
Qed.

End DefaultArgument.

(** ** Laws of the accessors *)

Section AccessorLaws.

Variable s : bool.
Local Abbreviation rt := (Native.runtime s).

(** X1: for every bit index below the bit width and every [default],
    writing [enabled] and then reading with the same [default] returns
    [enabled]. *)
Theorem write_then_read_any_default
        (ctx_no : Z) (enabled default : bool) (w : World) :
  0 <= ctx_no < value bits ->
  eval (_write_global_ctx rt ctx_no enabled default ;;
        _is_global_ctx rt ctx_no default) w
  = Ok enabled.
Proof.
  intros Hrange. unfold eval.
  erewrite bind_ok by apply native_write_global_ctx.
  rewrite native_is_global_ctx. cbn [fst reg].
  rewrite read_write_same by exact Hrange.
  destruct enabled, default; reflexivity.
Qed.

(** X3: reading a flag and writing the value read back leaves the register
    as it was, for each of the four backends. *)
Theorem read_then_write_back (w : World) :
  reg (exec (x <- atfp_math_enabled rt ;; enable_atfp_math rt x) w)
  = reg w /\
  reg (exec (x <- atfp_mha_enabled rt ;; enable_atfp_mha rt x) w)
  = reg w /\
  reg (exec (x <- atfp_encoder_enabled rt ;; enable_atfp_encoder rt x) w)
  = reg w /\
  reg (exec (x <- atfp_nested_tensor_enabled rt ;;
             enable_atfp_nested_tensor rt x) w)
  = reg w.
Proof.
  unfold_accessors. unfold exec.
  repeat split;
    erewrite bind_ok by apply native_getter;
    rewrite native_setter; cbn [snd reg read_bit];
    rewrite negb_involutive; destruct (reg w); reflexivity.
Qed.

(** X4: of two writes to the same backend the later one decides the
    register, so writing the same value twice is writing it once. *)
Theorem last_write_wins (x y : bool) (w : World) :
  reg (exec (enable_atfp_math rt x ;; enable_atfp_math rt y) w)
  = reg (exec (enable_atfp_math rt y) w) /\
  reg (exec (enable_atfp_mha rt x ;; enable_atfp_mha rt y) w)
  = reg (exec (enable_atfp_mha rt y) w) /\
  reg (exec (enable_atfp_encoder rt x ;; enable_atfp_encoder rt y) w)
  = reg (exec (enable_atfp_encoder rt y) w) /\
  reg (exec (enable_atfp_nested_tensor rt x ;;
             enable_atfp_nested_tensor rt y) w)
  = reg (exec (enable_atfp_nested_tensor rt y) w).
Proof.
  unfold_accessors. unfold exec.
  repeat split;
    erewrite bind_ok by apply native_setter;
    rewrite !native_setter; reflexivity.
Qed.

(** X5: writes to two different bits below the bit width give the same
    register in either order, whatever the values and the [default]s. *)
Theorem writes_commute
        (i j : Z) (x y default_i default_j : bool) (w : World) :
  0 <= i < value bits -> 0 <= j < value bits -> i <> j ->
  reg (exec (_write_global_ctx rt i x default_i ;;
             _write_global_ctx rt j y default_j) w)
  = reg (exec (_write_global_ctx rt j y default_j ;;
               _write_global_ctx rt i x default_i) w).
Proof.
  intros Hi Hj Hij. unfold exec.
  erewrite !bind_ok by apply native_write_global_ctx.
  rewrite !native_write_global_ctx. cbn [snd reg].
  apply register_ext. intros k Hk.
  destruct (Z.eq_dec k i) as [-> | Hki].
  - rewrite read_write_other by congruence.
    rewrite !read_write_same by exact Hi.
    reflexivity.
  - rewrite (read_write_other i k) by congruence.
    destruct (Z.eq_dec k j) as [-> | Hkj].
    + rewrite !read_write_same by exact Hj. reflexivity.
    + rewrite !(read_write_other j k) by congruence.
      rewrite read_write_other by congruence. reflexivity.
Qed.

End AccessorLaws.

(** ** The scope on any runtime *)

Section ScopeOnAnyRuntime.

Variable rt : Runtime.

(** [atfp_kernel] in three steps: capture, then the [try] with the requested
    writes and the block, then the [finally] with the restoring writes. *)
Lemma atfp_kernel_steps {A} (opts : Options) (block : Dict -> M A)
      (w : World) :
  atfp_kernel rt opts block w
  = (previous <- read_flags rt ;;
     try_finally (apply_options rt opts ;; block empty_dict)
                 (restore_flags rt previous)) w.
Proof.
  unfold atfp_kernel, read_flags, bind.
  destruct (atfp_math_enabled rt w) as [[pm | e] w1]; [| reflexivity].
  destruct (atfp_mha_enabled rt w1) as [[ph | e] w2]; [| reflexivity].
  destruct (atfp_encoder_enabled rt w2) as [[pe | e] w3]; [| reflexivity].
  destruct (atfp_nested_tensor_enabled rt w3) as [[pn | e] w4];
    [| reflexivity].
  unfold ret, try_finally, apply_options, restore_flags, bind.
  destruct (enable_atfp_math rt (enable_math opts) w4) as [[[] | e] v1];
    [| reflexivity].
  destruct (enable_atfp_mha rt (enable_mha opts) v1) as [[[] | e] v2];
    [| reflexivity].
  destruct (enable_atfp_encoder rt (enable_encoder opts) v2)
    as [[[] | e] v3]; [| reflexivity].
  destruct (enable_atfp_nested_tensor rt (enable_nested_tensor opts) v3)
    as [[[] | e] v4]; reflexivity.
Qed.

(** X6: on any runtime, if capturing the four flags raises, [atfp_kernel]
    raises the same exception in the state the failed capture left: the
    captures are outside the [try], so nothing is written, the block is not
    run and nothing is restored. *)
Theorem capture_failure_propagates {A} (opts : Options)
        (block : Dict -> M A) (w w' : World) (e : Exn) :
  read_flags rt w = (Raise e, w') ->
  atfp_kernel rt opts block w = (Raise e, w').
Proof.
  intros Hcapture. rewrite atfp_kernel_steps.
  apply bind_raise. exact Hcapture.
Qed.

(** X7: on any runtime, if the four flags are captured and one of the
    requested writes then raises, the block is not run and the [finally]
    still runs from the state the failed write left: the restoring writes
    are made, and the exception propagates unless a restoring write raises
    one of its own. *)
Theorem entry_failure_still_restores {A} (opts : Options)
        (block : Dict -> M A) (w w1 w2 : World)
        (previous : bool * bool * bool * bool) (e : Exn) :
  read_flags rt w = (Ok previous, w1) ->
  apply_options rt opts w1 = (Raise e, w2) ->
  atfp_kernel rt opts block w
  = match restore_flags rt previous w2 with
    | (Ok _, w3) => (Raise e, w3)
    | (Raise e', w3) => (Raise e', w3)
    end.
Proof.
  intros Hcapture Hentry. rewrite atfp_kernel_steps.
  erewrite bind_ok by exact Hcapture.
  unfold try_finally.
  erewrite bind_raise by exact Hentry.
  reflexivity.
Qed.

(** X10: on any runtime, if a restoring write raises, [atfp_kernel] raises
    that exception in the state the failed write left, whatever the block
    did: the block's result or exception is lost, and the flags that come
    later in the [finally] are not written back. *)
Theorem restore_failure_masks_outcome {A} (opts : Options)
        (block : Dict -> M A) (w w1 w2 w3 : World)
        (previous : bool * bool * bool * bool) (outcome : Result A)
        (e : Exn) :
  read_flags rt w = (Ok previous, w1) ->
  (apply_options rt opts ;; block empty_dict) w1 = (outcome, w2) ->
  restore_flags rt previous w2 = (Raise e, w3) ->
  atfp_kernel rt opts block w = (Raise e, w3).
Proof.
  intros Hcapture Htry Hrestore. rewrite atfp_kernel_steps.
  erewrite bind_ok by exact Hcapture.
  unfold try_finally. rewrite Htry, Hrestore. reflexivity.
Qed.

End ScopeOnAnyRuntime.

(** ** Nested scopes on the native runtime *)

Section NestedScopes.

Variable s : bool.
Local Abbreviation rt := (Native.runtime s).

(** X8: the options of an inner scope replace those of the outer scope and
    are not merged with them: a block in the inner scope reads each flag as
    the inner scope's keyword argument, so an inner scope with the default
    options enables again what the outer scope disabled. *)
Theorem inner_options_override (outer inner : Options) (w : World) :
  eval (atfp_kernel rt outer
          (fun _ => atfp_kernel rt inner (fun _ => read_flags rt))) w
  = Ok (requested inner) /\
  eval (atfp_kernel rt outer
          (fun _ => atfp_kernel rt default_options (fun _ => read_flags rt)))
       w
  = Ok (true, true, true, true).
Proof.
  unfold eval.
  rewrite !native_atfp_kernel. unfold eval, exec.
  rewrite !native_atfp_kernel. unfold eval, exec.
  rewrite !native_scope_entry. cbn [fst snd].
  rewrite !native_read_flags. cbn [fst reg].
  rewrite !flags_of_requested_register. split; reflexivity.
Qed.

(** X9: nested scopes are unwound innermost first, on completion and on an
    exception alike: after everything the block did come the four writes
    that put back what the outer scope requested, and after them the four
    writes that put back the flags from before the outer scope. *)
Theorem nested_exit_order {A} (outer inner : Options) (block : Dict -> M A)
        (w : World) :
  exists previous_math previous_mha previous_encoder previous_nested_tensor,
    eval (read_flags rt) w
    = Ok (previous_math, previous_mha, previous_encoder,
          previous_nested_tensor) /\
    calls (exec (atfp_kernel rt outer (fun _ => atfp_kernel rt inner block))
                w)
    = calls (exec (block empty_dict)
                  (exec (scope_entry rt inner)
                        (exec (scope_entry rt outer) w)))
      ++ [write_call (value MATH) (enable_math outer);
          write_call (value MHA) (enable_mha outer);
          write_call (value ENCODER) (enable_encoder outer);
          write_call (value NESTED_TENSOR) (enable_nested_tensor outer)]
      ++ [write_call (value MATH) previous_math;
          write_call (value MHA) previous_mha;
          write_call (value ENCODER) previous_encoder;
          write_call (value NESTED_TENSOR) previous_nested_tensor].
Proof.
  do 4 eexists. unfold eval, exec.
  rewrite native_read_flags. split; [reflexivity |].
  rewrite !native_atfp_kernel. unfold eval, exec.
  rewrite !native_atfp_kernel. unfold eval, exec.
  rewrite !native_scope_entry. cbn [fst snd reg calls].
  unfold requested_register. cbn [bit0 bit1 bit2 bit3 value].
  rewrite !negb_involutive. rewrite <- app_assoc. reflexivity.
Qed.

End NestedScopes.

(** ** Failing runtimes and the laws at concrete inputs *)

Example get_fails_run :
  atfp_kernel Sample.get_fails Sample.opts0
              (Sample.raising_block Sample.get_fails) Sample.w0
  = (Raise "RuntimeError"%string,
     mkWorld (mkRegister true false false true) [GetCtx 0; GetCtx 1]).
Proof. reflexivity. Qed.

Example set_fails_run :
  atfp_kernel Sample.set_fails Sample.opts0
              (Sample.reading_block Sample.set_fails) Sample.w0
  = (Raise "RuntimeError"%string,
     mkWorld (mkRegister true false false true)
             [GetCtx 0; GetCtx 1; GetCtx 2; GetCtx 3;
              SetCtx 0; UnsetCtx 1;
              SetCtx 0; UnsetCtx 1; UnsetCtx 2; SetCtx 3]).
Proof. reflexivity. Qed.

(** [write_then_read_any_default] for the nested_tensor bit with [default]
    false, on the scripting path. *)
Lemma write_then_read_any_default_witness :
  0 <= 3 < value bits /\
  eval (_write_global_ctx (Native.runtime true) 3 true false ;;
        _is_global_ctx (Native.runtime true) 3 false) Sample.w0
  = Ok true.
Proof.
  split; [simpl; lia |].
  apply (write_then_read_any_default true 3 true false Sample.w0).
  simpl; lia.
Defined.

(** [writes_commute] for disabling math and enabling nested_tensor. *)
Lemma writes_commute_witness :
  (0 <= 0 < value bits /\ 0 <= 3 < value bits /\ 0 <> 3) /\
  reg (exec (_write_global_ctx (Native.runtime false) 0 false true ;;
             _write_global_ctx (Native.runtime false) 3 true true)
            fresh_world)
  = reg (exec (_write_global_ctx (Native.runtime false) 3 true true ;;
               _write_global_ctx (Native.runtime false) 0 false true)
              fresh_world).
Proof.
  split; [simpl; lia |].
  apply (writes_commute false 0 3 false true true true fresh_world);
    simpl; lia.
Defined.

(** [capture_failure_propagates] on a runtime whose third capture raises. *)
Lemma capture_failure_propagates_witness :
  read_flags Sample.get_fails Sample.w0
  = (Raise "RuntimeError"%string,
     mkWorld (mkRegister true false false true) [GetCtx 0; GetCtx 1]) /\
  atfp_kernel Sample.get_fails Sample.opts0
              (Sample.raising_block Sample.get_fails) Sample.w0
  = (Raise "RuntimeError"%string,
     mkWorld (mkRegister true false false true) [GetCtx 0; GetCtx 1]).
Proof.
  split; [reflexivity |].
  apply (capture_failure_propagates Sample.get_fails Sample.opts0
           (Sample.raising_block Sample.get_fails) Sample.w0).
  reflexivity.
Defined.

(** [entry_failure_still_restores] on a runtime whose third requested write
    raises: the block is skipped and the four flags are written back. *)
Lemma entry_failure_still_restores_witness :
  read_flags Sample.set_fails Sample.w0
  = (Ok (false, true, true, false),
     mkWorld (mkRegister true false false true)
             [GetCtx 0; GetCtx 1; GetCtx 2; GetCtx 3]) /\
  apply_options Sample.set_fails Sample.opts0
    (mkWorld (mkRegister true false false true)
             [GetCtx 0; GetCtx 1; GetCtx 2; GetCtx 3])
  = (Raise "RuntimeError"%string,
     mkWorld (mkRegister true false false true)
             [GetCtx 0; GetCtx 1; GetCtx 2; GetCtx 3;
              SetCtx 0; UnsetCtx 1]) /\
  atfp_kernel Sample.set_fails Sample.opts0
              (Sample.reading_block Sample.set_fails) Sample.w0
  = (Raise "RuntimeError"%string,
     mkWorld (mkRegister true false false true)
             [GetCtx 0; GetCtx 1; GetCtx 2; GetCtx 3;
              SetCtx 0; UnsetCtx 1;
              SetCtx 0; UnsetCtx 1; UnsetCtx 2; SetCtx 3]).
Proof.
  split; [reflexivity |]. split; [reflexivity |].
  exact (entry_failure_still_restores Sample.set_fails Sample.opts0
           (Sample.reading_block Sample.set_fails) Sample.w0
           (mkWorld (mkRegister true false false true)
                    [GetCtx 0; GetCtx 1; GetCtx 2; GetCtx 3])
           (mkWorld (mkRegister true false false true)
                    [GetCtx 0; GetCtx 1; GetCtx 2; GetCtx 3;
                     SetCtx 0; UnsetCtx 1])
           (false, true, true, false) "RuntimeError"%string
           eq_refl eq_refl).
Defined.

(** [restore_failure_masks_outcome] on a runtime whose restoring write for
    the encoder raises: the block had completed, and encoder and
    nested_tensor stay enabled although they were disabled before entry. *)
Lemma restore_failure_masks_outcome_witness :
  read_flags Sample.set_fails Sample.w1
  = (Ok (true, true, false, false),
     mkWorld (mkRegister false false true true)
             [GetCtx 0; GetCtx 1; GetCtx 2; GetCtx 3]) /\
  (apply_options Sample.set_fails default_options ;;
   Sample.reading_block Sample.set_fails empty_dict)
    (mkWorld (mkRegister false false true true)
             [GetCtx 0; GetCtx 1; GetCtx 2; GetCtx 3])
  = (Ok (true, false, true, true),
     mkWorld (mkRegister false true false false)
             [GetCtx 0; GetCtx 1; GetCtx 2; GetCtx 3;
              UnsetCtx 0; UnsetCtx 1; UnsetCtx 2; UnsetCtx 3;
              SetCtx 1; UnsetCtx 3;
              GetCtx 0; GetCtx 1; GetCtx 2; GetCtx 3]) /\
  restore_flags Sample.set_fails (true, true, false, false)
    (mkWorld (mkRegister false true false false)
             [GetCtx 0; GetCtx 1; GetCtx 2; GetCtx 3;
              UnsetCtx 0; UnsetCtx 1; UnsetCtx 2; UnsetCtx 3;
              SetCtx 1; UnsetCtx 3;
              GetCtx 0; GetCtx 1; GetCtx 2; GetCtx 3])
  = (Raise "RuntimeError"%string,
     mkWorld (mkRegister false false false false)
             [GetCtx 0; GetCtx 1; GetCtx 2; GetCtx 3;
              UnsetCtx 0; UnsetCtx 1; UnsetCtx 2; UnsetCtx 3;
              SetCtx 1; UnsetCtx 3;
              GetCtx 0; GetCtx 1; GetCtx 2; GetCtx 3;
              UnsetCtx 0; UnsetCtx 1]) /\
  atfp_kernel Sample.set_fails default_options
              (Sample.reading_block Sample.set_fails) Sample.w1
  = (Raise "RuntimeError"%string,
     mkWorld (mkRegister false false false false)
             [GetCtx 0; GetCtx 1; GetCtx 2; GetCtx 3;
              UnsetCtx 0; UnsetCtx 1; UnsetCtx 2; UnsetCtx 3;
              SetCtx 1; UnsetCtx 3;
              GetCtx 0; GetCtx 1; GetCtx 2; GetCtx 3;
              UnsetCtx 0; UnsetCtx 1]).
Proof.
  split; [reflexivity |]. split; [reflexivity |]. split; [reflexivity |].
  apply (restore_failure_masks_outcome Sample.set_fails default_options
           (Sample.reading_block Sample.set_fails) Sample.w1
           (mkWorld (mkRegister false false true true)
                    [GetCtx 0; GetCtx 1; GetCtx 2; GetCtx 3])
           (mkWorld (mkRegister false true false false)
                    [GetCtx 0; GetCtx 1; GetCtx 2; GetCtx 3;
                     UnsetCtx 0; UnsetCtx 1; UnsetCtx 2; UnsetCtx 3;
                     SetCtx 1; UnsetCtx 3;
                     GetCtx 0; GetCtx 1; GetCtx 2; GetCtx 3])
           _ (true, true, false, false) (Ok (true, false, true, true)));
    reflexivity.
Defined.
